(** * The User ID controller of the key server (src/ctrl/user-id.js)

    The controller is a class with three generator methods, [batch],
    [getVerfied] and [remove].  Each method talks to an injected MongoDB
    client ([this._mongo]) by yielding one request at a time and being
    resumed with the reply, or with the exception the client raised.

    The embedding keeps that shape: a method is a value of the free monad
    [gen], whose [Yield] nodes are the suspension points; [run] plays the
    role of the scheduler that drives the generator against a client.
    The user ID objects handed to [batch] are JavaScript objects shared with
    the caller, so they live in a heap of references; [batch] passes the
    client that very array, so the client can write these objects too.

    The embedding is typed after the documentation of the source: the
    entries of [options.userIds] are objects, [verified] is a boolean, and
    the client answers with a result object or an array of documents.  The
    [TypeError]s that JavaScript raises on entries or answers of other
    kinds are outside it. *)

From stdpp Require Import gmap strings list.

(** ** Documents *)

(** [const DB_TYPE = 'userid';] *)
Definition DB_TYPE : string := "userid".

(** A user ID document, with the fields of the format comment at the top of
    the source file.  A field that is absent or [undefined] is [None]. *)
Record userid : Type := UserIdDoc {
  _id : option N;
  email : option string;
  name : option string;
  keyid : option string;
  nonce : option string;
  verified : option bool
}.

Global Instance userid_eq_dec : EqDecision userid.
Proof. solve_decision. Defined.

(** [u.keyid = v] on the object itself. *)
Definition set_keyid (v : option string) (u : userid) : userid :=
  {| _id := _id u; email := email u; name := name u;
     keyid := v; nonce := nonce u; verified := verified u |}.

(** [u._id = v], what a store does when it assigns an identifier. *)
Definition set_id (v : option N) (u : userid) : userid :=
  {| _id := v; email := email u; name := name u;
     keyid := keyid u; nonce := nonce u; verified := verified u |}.

(** JavaScript truthiness of the two kinds of field the controller tests:
    [if (keyid)] on a string or [undefined], and [u.verified]. *)
Definition truthy_string (v : option string) : bool :=
  match v with
  | Some s => negb (String.eqb s EmptyString)
  | None => false
  end.

Definition truthy_bool (v : option bool) : bool :=
  match v with
  | Some b => b
  | None => false
  end.

(** The callback [u => u.verified]. *)
Definition is_verified (u : userid) : bool := truthy_bool (verified u).

(** ** The heap of caller objects *)

(** Object references; the heap maps a reference to the object's fields. *)
Abbreviation loc := positive (only parsing).
Abbreviation heap := (gmap positive userid) (only parsing).

(** [uid.email] read through a reference. *)
Definition email_of (h : heap) (uid : loc) : option string :=
  h !! uid ≫= email.

(** The objects an array of references points at, in array order.  A
    reference held by a JavaScript array is always live, so nothing is
    dropped on a heap that the program can build. *)
Definition deref (h : heap) (us : list loc) : list userid :=
  omap (λ u, h !! u) us.

(** ** The MongoDB client interface *)

(** Query objects: [{ keyid: v }] and [{ email: v }]. *)
Inductive query : Type :=
| Keyid_is (v : option string)
| Email_is (v : option string).

Global Instance query_eq_dec : EqDecision query.
Proof. solve_decision. Defined.

(** The reply of [batch]: the controller reads [r.insertedCount]. *)
Record insert_result : Type := InsertResult { insertedCount : Z }.

(** The three client methods the controller calls, with their arguments. *)
Inductive mongo_req : Type :=
| MongoBatch (documents : list userid) (type : string)
| MongoList (q : query) (type : string)
| MongoRemove (q : query) (type : string).

(** What the generator is resumed with after each request. *)
Definition reply (r : mongo_req) : Type :=
  match r with
  | MongoBatch _ _ => insert_result
  | MongoList _ _ => list userid
  | MongoRemove _ _ => unit
  end.

(** A client over a store of type [S].  Every method may fail with a reason
    instead of replying; the store it leaves behind is its own business.
    [batch] receives the caller's own array of objects and not a copy:
    [mongo_batch_writes] is the heap as the client leaves it when it is
    handed the array [documents] in the heap [h], for instance with the
    identifiers it has assigned written into the documents. *)
Class Mongo (S : Type) : Type := {
  mongo_batch : list userid → string → S → S * (string + insert_result);
  mongo_list : query → string → S → S * (string + list userid);
  mongo_remove : query → string → S → S * (string + unit);
  mongo_batch_writes : list loc → string → heap → S → heap
}.

Definition handle {S} `{Mongo S} (r : mongo_req) : S → S * (string + reply r) :=
  match r with
  | MongoBatch ds t => mongo_batch ds t
  | MongoList q t => mongo_list q t
  | MongoRemove q t => mongo_remove q t
  end.

(** ** Generators *)

(** Exceptions, told apart by where they are raised: [Error] is a
    [throw new Error(message)] of the controller, [TypeError] a property
    access on [undefined], [MongoError] whatever the client raised. *)
Inductive exn : Type :=
| Error (message : string)
| TypeError
| MongoError (reason : string).

Global Instance exn_eq_dec : EqDecision exn.
Proof. solve_decision. Defined.

Inductive gen (A : Type) : Type :=
| Return (a : A)
| Throw (e : exn)
| GetHeap (k : heap → gen A)
| PutHeap (h : heap) (k : gen A)
| Yield (r : mongo_req) (k : reply r → gen A)
| YieldBatch (documents : list loc) (type : string) (k : insert_result → gen A).

Arguments Return {A} a.
Arguments Throw {A} e.
Arguments GetHeap {A} k.
Arguments PutHeap {A} h k.
Arguments Yield {A} r k.
Arguments YieldBatch {A} documents type k.

Fixpoint gen_bind {A B} (f : A → gen B) (g : gen A) : gen B :=
  match g with
  | Return a => f a
  | Throw e => Throw e
  | GetHeap k => GetHeap (λ h, gen_bind f (k h))
  | PutHeap h k => PutHeap h (gen_bind f k)
  | Yield r k => Yield r (λ x, gen_bind f (k x))
  | YieldBatch us t k => YieldBatch us t (λ x, gen_bind f (k x))
  end.

Global Instance gen_mret : MRet gen := @Return.
Global Instance gen_mbind : MBind gen := @gen_bind.

(** [yield this._mongo.m(...)] with arguments built for the call. *)
Definition yield (r : mongo_req) : gen (reply r) := Yield r Return.

(** [yield this._mongo.batch(documents, type)] with an array of the
    caller. *)
Definition yield_batch (documents : list loc) (type : string) : gen insert_result :=
  YieldBatch documents type Return.

Definition get_heap : gen heap := GetHeap Return.

(** An assignment to a field of the object behind [u]. *)
Definition update (u : loc) (f : userid → userid) : gen unit :=
  GetHeap (λ h, PutHeap (alter f u h) (Return tt)).

(** [array.forEach(f)] *)
Fixpoint forEach (us : list loc) (f : loc → gen unit) : gen unit :=
  match us with
  | [] => Return tt
  | u :: us' => f u ;; forEach us' f
  end.

(** One request as the client saw it, with what it answered. *)
Record interaction : Type := Interaction {
  request : mongo_req;
  response : string + reply request
}.

(** Where a run of a generator ends. *)
Record outcome (S A : Type) : Type := Outcome {
  final_heap : heap;
  final_store : S;
  calls : list interaction;
  completion : exn + A
}.

Arguments Outcome {S A} _ _ _ _.
Arguments final_heap {S A} _.
Arguments final_store {S A} _.
Arguments calls {S A} _.
Arguments completion {S A} _.

(** What a client that was handed the array [us] has written: it reaches
    the caller's objects through the array only, so of the heap [written]
    it leaves behind, the objects of [us] count and all others stay as
    they are in [h]. *)
Definition handed (us : list loc) (h written : heap) : heap :=
  foldl (λ h' u, from_option (λ d, <[u := d]> h') h' (written !! u)) h us.

(** Driving a generator to completion: a reply resumes it, an exception of
    the client is thrown into it, and as no method has a [try] it ends
    there.  At [YieldBatch] the client reads the documents of the array as
    they are in the heap at that moment, and may write them. *)
Fixpoint run {S} `{Mongo S} {A} (g : gen A) (h : heap) (s : S) : outcome S A :=
  match g with
  | Return a => Outcome h s [] (inr a)
  | Throw e => Outcome h s [] (inl e)
  | GetHeap k => run (k h) h s
  | PutHeap h' k => run k h' s
  | Yield r k =>
      match handle r s with
      | (s', inl why) => Outcome h s' [Interaction r (inl why)] (inl (MongoError why))
      | (s', inr x) =>
          let o := run (k x) h s' in
          Outcome (final_heap o) (final_store o)
                  (Interaction r (inr x) :: calls o) (completion o)
      end
  | YieldBatch us t k =>
      let r := MongoBatch (deref h us) t in
      let h' := handed us h (mongo_batch_writes us t h s) in
      match mongo_batch (deref h us) t s with
      | (s', inl why) => Outcome h' s' [Interaction r (inl why)] (inl (MongoError why))
      | (s', inr x) =>
          let o := run (k x) h' s' in
          Outcome (final_heap o) (final_store o)
                  (Interaction r (inr x) :: calls o) (completion o)
      end
  end.

(** ** The controller *)

(** The [options] argument of the three methods. *)
Record options : Type := Options {
  options_keyid : option string;
  options_userIds : option (list loc)
}.

Module UserId.

(** [*batch(options)] *)
Definition batch (options : options) : gen unit :=
  match options_userIds options with
  | None => Throw TypeError
  | Some userIds =>
      forEach userIds (λ u, update u (set_keyid (options_keyid options))) ;;
      r ← yield_batch userIds DB_TYPE ;
      if bool_decide (insertedCount r ≠ Z.of_nat (length userIds))
      then Throw (Error "Failed to persist user ids")
      else Return tt
  end.

(** The [for (let uid of userIds)] loop of [getVerfied]. *)
Fixpoint by_email (userIds : list loc) : gen (option userid) :=
  match userIds with
  | [] => Return None
  | uid :: rest =>
      h ← get_heap ;
      uids ← yield (MongoList (Email_is (email_of h uid)) DB_TYPE) ;
      match List.find is_verified uids with
      | Some verified => Return (Some verified)
      | None => by_email rest
      end
  end.

(** [*getVerfied(options)]; falling off the end returns [undefined],
    which is [None]. *)
Definition getVerfied (options : options) : gen (option userid) :=
  let keyid := options_keyid options in
  let userIds := options_userIds options in
  let try_emails :=
    match userIds with
    | Some userIds => by_email userIds
    | None => Return None
    end in
  if truthy_string keyid then
    uids ← yield (MongoList (Keyid_is keyid) DB_TYPE) ;
    match List.find is_verified uids with
    | Some verified => Return (Some verified)
    | None => try_emails
    end
  else try_emails.

(** [*remove(options)] *)
Definition remove (options : options) : gen unit :=
  yield (MongoRemove (Keyid_is (options_keyid options)) DB_TYPE) ;;
  Return tt.

End UserId.

(** ** A store for the client *)

(** Modelled from the spec: the MongoDB client of the repository is not part
    of the controller's file; this is the DocumentCollection capability of
    section 6 of the specification.  [find] returns all documents of the
    named collection matching an equality filter, [deleteMany] deletes all
    documents matching it, [insertMany] attempts to insert the given
    records and returns how many succeeded; the identifier of a record is
    generated by the store on insert. *)
Record db : Type := Db {
  next_id : N;
  collections : gmap string (list userid)
}.

(** Modelled from the spec: the documents of one named collection. *)
Definition collection (type : string) (d : db) : list userid :=
  default [] (collections d !! type).

(** Modelled from the spec: the equality filter of [find] and
    [deleteMany], on one field. *)
Definition matches (q : query) (u : userid) : Prop :=
  match q with
  | Keyid_is v => keyid u = v
  | Email_is v => email u = v
  end.

Global Instance matches_dec q u : Decision (matches q u).
Proof. destruct q; simpl; apply _. Defined.

(** Modelled from the spec: the identifiers the store generates on
    insert. *)
Fixpoint assign_ids (n : N) (docs : list userid) : list userid :=
  match docs with
  | [] => []
  | u :: docs' => set_id (Some n) u :: assign_ids (N.succ n) docs'
  end.

(** Modelled from the spec: [insertMany] attempts to insert the records
    and returns how many succeeded; here the first [limit] of them do. *)
Definition db_insertSome (limit : nat) (docs : list userid) (type : string)
    (d : db) : db * (string + insert_result) :=
  let stored := assign_ids (next_id d) (take limit docs) in
  (Db (next_id d + N.of_nat (length stored))
      (<[type := collection type d ++ stored]> (collections d)),
   inr (InsertResult (Z.of_nat (length stored)))).

(** Modelled from the spec: [insertMany] when every record succeeds. *)
Definition db_insertMany (docs : list userid) : string → db → db * (string + insert_result) :=
  db_insertSome (length docs) docs.

(** Modelled from the spec: [find] returns all documents matching the
    filter and leaves the store alone. *)
Definition db_find (q : query) (type : string) (d : db) : db * (string + list userid) :=
  (d, inr (filter (matches q) (collection type d))).

(** Modelled from the spec: [deleteMany] deletes all documents matching
    the filter; a collection that does not exist stays that way. *)
Definition db_deleteMany (q : query) (type : string) (d : db) : db * (string + unit) :=
  (Db (next_id d) (alter (filter (λ u, ¬ matches q u)) type (collections d)), inr tt).

(** Modelled from the spec: the client over that store.  The specification
    has the inserted records returned and says nothing of the drafts being
    written, so this client leaves them alone. *)
Global Instance spec_mongo : Mongo db := {|
  mongo_batch := db_insertMany;
  mongo_list := db_find;
  mongo_remove := db_deleteMany;
  mongo_batch_writes := λ _ _ h _, h
|}.

(** Modelled from the spec: the same store behind a client whose inserts
    stop after [limit] records, the partial insert the controller guards
    against. *)
Definition partial_mongo (limit : nat) : Mongo db := {|
  mongo_batch := db_insertSome limit;
  mongo_list := db_find;
  mongo_remove := db_deleteMany;
  mongo_batch_writes := λ _ _ h _, h
|}.

(** The identifiers [assign_ids] gives, written into the objects of the
    array themselves. *)
Fixpoint assign_in_place (n : N) (us : list loc) (h : heap) : heap :=
  match us with
  | [] => h
  | u :: us' => assign_in_place (N.succ n) us' (alter (set_id (Some n)) u h)
  end.

(** The same store behind a client that, as MongoDB drivers do, writes the
    identifier of each inserted document into the object it was handed. *)
Definition driver_mongo : Mongo db := {|
  mongo_batch := db_insertMany;
  mongo_list := db_find;
  mongo_remove := db_deleteMany;
  mongo_batch_writes := λ us _ h d, assign_in_place (next_id d) us h
|}.

(** ** Notions used in the statements *)

(** The heap after [us.forEach(u => u.keyid = v)]. *)
Definition stamped (v : option string) (us : list loc) (h : heap) : heap :=
  foldl (λ h' u, alter (set_keyid v) u h') h us.

(** The error [batch] throws when the counts differ. *)
Definition PersistenceError : exn := Error "Failed to persist user ids".

(** The request of one turn of the loop, and of the lookup by key id. *)
Definition email_query (h : heap) (uid : loc) : mongo_req :=
  MongoList (Email_is (email_of h uid)) DB_TYPE.

Definition keyid_query (keyid : option string) : mongo_req :=
  MongoList (Keyid_is keyid) DB_TYPE.

(** An answered request for a list in which no document is verified. *)
Definition answered_unverified (i : interaction) : Prop :=
  match i with
  | Interaction (MongoList _ _) (inr uids) => List.find is_verified uids = None
  | _ => False
  end.

Definition is_list_request (r : mongo_req) : Prop :=
  match r with
  | MongoList _ DB_TYPE' => DB_TYPE' = DB_TYPE
  | _ => False
  end.

Section Misses.
Context {S : Type} `{Mongo S}.

(** The candidates [us] are looked up one after the other from store [s]
    on, each lookup is answered and none holds a verified document: the
    store is then [s'] and [log] is what was asked and answered. *)
Inductive all_miss (h : heap) : list loc → S → list interaction → S → Prop :=
| all_miss_nil s : all_miss h [] s [] s
| all_miss_cons uid us s s' s'' uids log :
    mongo_list (Email_is (email_of h uid)) DB_TYPE s = (s', inr uids) →
    List.find is_verified uids = None →
    all_miss h us s' log s'' →
    all_miss h (uid :: us) s
             (Interaction (email_query h uid) (inr uids) :: log) s''.

(** The lookup by key id gives no verified document: it is skipped
    because the key id is not truthy, or it is answered with none. *)
Inductive key_miss (keyid : option string) : S → list interaction → S → Prop :=
| key_miss_skipped s :
    truthy_string keyid = false → key_miss keyid s [] s
| key_miss_answered s s' uids :
    truthy_string keyid = true →
    mongo_list (Keyid_is keyid) DB_TYPE s = (s', inr uids) →
    List.find is_verified uids = None →
    key_miss keyid s [Interaction (keyid_query keyid) (inr uids)] s'.

End Misses.

Definition verified_for (K : string) (r : userid) : Prop :=
  keyid r = Some K ∧ verified r = Some true.

(** What is expected of [getVerfied({keyid: K})]: a verified record of the
    key is returned exactly when the store has one, and nothing is returned
    otherwise. *)
Definition finds_verified_by_key (K : string) (h : heap) (d : db) : Prop :=
  let c := completion (run (UserId.getVerfied (Options (Some K) None)) h d) in
  ((∃ r, c = inr (Some r) ∧ verified_for K r)
   ↔ (∃ r, r ∈ collection DB_TYPE d ∧ verified_for K r))
  ∧ ((¬ ∃ r, r ∈ collection DB_TYPE d ∧ verified_for K r) → c = inr None).

(** ** The scenarios of the specification *)

(** [{email: "jon@example.com", name: "Jon Smith", nonce: ..., verified: false}] *)
Definition jon : userid :=
  UserIdDoc None (Some "jon@example.com") (Some "Jon Smith") None
            (Some "123e4567-e89b-12d3-a456-426655440000") (Some false).

Definition jon_heap : gmap positive userid := {[ 1%positive := jon ]}.

Definition jon_options : options :=
  Options (Some "02C134D079701934") (Some [1%positive]).

Definition empty_db : db := Db 0 ∅.

(** Candidates that carry an email address only, as a caller passes them to
    [getVerfied], and the two records of the store. *)
Definition candidate (address : string) : userid :=
  UserIdDoc None (Some address) None None None None.

Definition record (id : N) (address key : string) (flag : bool) : userid :=
  UserIdDoc (Some id) (Some address) None (Some key) None (Some flag).

Definition ab_heap : gmap positive userid :=
  {[ 1%positive := candidate "a@x"; 2%positive := candidate "b@x" ]}.

Definition ab_db : db :=
  Db 2 {[ DB_TYPE := [record 0 "a@x" "ABCD" false; record 1 "b@x" "EF01" true] ]}.

(** The store of the example with the record of b@x not yet verified. *)
Definition unverified_db : db :=
  Db 2 {[ DB_TYPE := [record 0 "a@x" "ABCD" false; record 1 "b@x" "EF01" false] ]}.

(** The store of the scenario: two records of key ABCD, the verified one
    behind the unverified one. *)
Definition abcd_db : db :=
  Db 2 {[ DB_TYPE := [record 0 "a@x" "ABCD" false; record 1 "b@x" "ABCD" true] ]}.

(** A store whose one record is verified and filed under the empty key id. *)
Definition blank_key_db : db :=
  Db 1 {[ DB_TYPE := [record 0 "a@x" EmptyString true] ]}.

(** The scenario: three records of key ABCD among two of another key. *)
Definition five_db : db :=
  Db 5 {[ DB_TYPE := [record 0 "a@x" "ABCD" false; record 1 "b@x" "EF01" true;
                      record 2 "c@x" "ABCD" true; record 3 "d@x" "EF01" false;
                      record 4 "e@x" "ABCD" false] ]}.

(** ** The lookups of [getVerfied] *)

(** The requests [getVerfied] can make, in the order of the source: the one
    by key id when the key id is truthy, then one per candidate. *)
Definition lookups (o : options) (h : heap) : list mongo_req :=
  (if truthy_string (options_keyid o) then [keyid_query (options_keyid o)] else [])
  ++ match options_userIds o with
     | Some userIds => email_query h <$> userIds
     | None => []
     end.

Section Ends.
Context {S : Type} `{Mongo S}.

(** How a run ends, read off its log: every request but the last was
    answered without a verified document; a record returned is the first
    verified document of the last reply; an exception is the failure of the
    last request; and nothing is returned only when all of [reqs] were
    asked. *)
Definition well_ended (reqs : list mongo_req) (o : outcome S (option userid)) : Prop :=
  request <$> calls o `prefix_of` reqs
  ∧ match completion o with
    | inr None =>
        Forall answered_unverified (calls o) ∧ request <$> calls o = reqs
    | inr (Some r) =>
        ∃ log q uids,
          calls o = log ++ [Interaction (MongoList q DB_TYPE) (inr uids)]
          ∧ Forall answered_unverified log
          ∧ List.find is_verified uids = Some r
    | inl e =>
        ∃ log req why,
          calls o = log ++ [Interaction req (inl why)]
          ∧ Forall answered_unverified log
          ∧ e = MongoError why
    end.

End Ends.

(** A request for a list with the answer the store of the specification
    gives to it in state [d]. *)
Definition answered_from (d : db) (i : interaction) : Prop :=
  match i with
  | Interaction (MongoList q t) (inr uids) =>
      uids = filter (matches q) (collection t d)
  | _ => False
  end.

(** A client that cannot reach its database: every method fails. *)
Definition down_mongo : Mongo unit := {|
  mongo_batch := λ _ _ s, (s, inl "connection refused");
  mongo_list := λ _ _ s, (s, inl "connection refused");
  mongo_remove := λ _ _ s, (s, inl "connection refused");
  mongo_batch_writes := λ _ _ h _, h
|}.

(** ** Running generators *)

Section Run.
Context {S : Type} `{Mongo S}.

Lemma outcome_eta {A} (o : outcome S A) :
  Outcome (final_heap o) (final_store o) (calls o) (completion o) = o.
Proof. by destruct o. Qed.

(** Sequencing: the second part starts where the first one ended, and is
    not started at all when the first one threw. *)
Lemma run_bind {A B} (g : gen A) (f : A → gen B) h s :
  run (g ≫= f) h s =
    let o := run g h s in
    match completion o with
    | inl e => Outcome (final_heap o) (final_store o) (calls o) (inl e)
    | inr a =>
        let o' := run (f a) (final_heap o) (final_store o) in
        Outcome (final_heap o') (final_store o') (calls o ++ calls o')
                (completion o')
    end.
Proof.
  revert h s. induction g as [a|e|k IH|h' k IH|r k IH|us t k IH]; intros h s.
  - simpl. by rewrite outcome_eta.
  - done.
  - apply IH.
  - apply IH.
  - change (run (Yield r k ≫= f) h s)
      with (run (Yield r (λ x, k x ≫= f)) h s).
    simpl. destruct (handle r s) as [s' [why|x]]; [done|].
    rewrite IH. simpl. by destruct (completion (run (k x) h s')).
  - change (run (YieldBatch us t k ≫= f) h s)
      with (run (YieldBatch us t (λ x, k x ≫= f)) h s).
    simpl. destruct (mongo_batch (deref h us) t s) as [s' [why|x]]; [done|].
    rewrite IH. simpl. by destruct (completion (run (k x) _ s')).
Qed.

Lemma run_forEach_set_keyid v us h s :
  run (forEach us (λ u, update u (set_keyid v))) h s
  = Outcome (stamped v us h) s [] (inr tt).
Proof.
  revert h. induction us as [|u us IH]; intros h; [done|].
  cbn [forEach]. rewrite run_bind. simpl. by rewrite IH.
Qed.

End Run.

Lemma set_keyid_idemp v u : set_keyid v (set_keyid v u) = set_keyid v u.
Proof. done. Qed.

(** Every object of the array has its [keyid] overwritten, however often
    it occurs there; every other object is left alone. *)
Lemma stamped_lookup v us (h : gmap positive userid) u :
  stamped v us h !! u
  = if decide (u ∈ us) then set_keyid v <$> h !! u else h !! u.
Proof.
  revert h. induction us as [|a us IH]; intros h.
  - by rewrite decide_False by apply not_elem_of_nil.
  - unfold stamped in *. cbn [foldl]. rewrite IH, lookup_alter.
    destruct (decide (u ∈ us)) as [Hin|Hin], (decide (a = u)) as [->|Hne].
    + rewrite decide_True by left. by destruct (h !! u).
    + by rewrite decide_True by (by right).
    + by rewrite decide_True by left.
    + rewrite decide_False; [done|]. intros [?|?]%elem_of_cons; congruence.
Qed.

Lemma deref_stamped v us (h : gmap positive userid) :
  deref (stamped v us h) us = set_keyid v <$> deref h us.
Proof.
  unfold deref.
  assert (∀ l : list positive, (∀ u, u ∈ l → u ∈ us) →
    omap (λ u, stamped v us h !! u) l = set_keyid v <$> omap (λ u, h !! u) l)
    as Hgen; [|by apply Hgen].
  induction l as [|a l IH]; intros Hsub; [done|].
  cbn [omap list_omap]. rewrite stamped_lookup, decide_True by (apply Hsub; left).
  rewrite IH by (intros; apply Hsub; by right).
  by destruct (h !! a).
Qed.

(** Of what the client leaves behind, the objects of the array are taken
    and nothing else. *)
Lemma handed_lookup us (h written : gmap positive userid) u :
  handed us h written !! u
  = if decide (u ∈ us)
    then match written !! u with Some d => Some d | None => h !! u end
    else h !! u.
Proof.
  revert h. induction us as [|a us IH]; intros h.
  - by rewrite decide_False by apply not_elem_of_nil.
  - unfold handed in *. cbn [foldl]. rewrite IH.
    assert (from_option (λ d, <[a:=d]> h) h (written !! a) !! u
            = if decide (a = u)
              then match written !! u with Some d => Some d | None => h !! u end
              else h !! u) as Hstep.
    { destruct (decide (a = u)) as [->|Hne].
      - destruct (written !! u); cbn; [by rewrite lookup_insert_eq|done].
      - destruct (written !! a); cbn; [by rewrite lookup_insert_ne|done]. }
    rewrite Hstep.
    destruct (decide (u ∈ us)) as [Hin|Hin], (decide (a = u)) as [->|Hne].
    + rewrite decide_True by left. by destruct (written !! u).
    + by rewrite decide_True by (by right).
    + by rewrite decide_True by left.
    + rewrite decide_False; [done|]. intros [?|?]%elem_of_cons; congruence.
Qed.

Lemma handed_nothing_written us (h : gmap positive userid) : handed us h h = h.
Proof.
  apply map_eq. intros u. rewrite handed_lookup.
  case_decide; [|done]. by destruct (h !! u).
Qed.

(** ** [batch] *)

Section Batch.
Context {S : Type} `{Mongo S}.

(** One run of [batch] on an array: the objects are stamped, the client
    is asked once, and its count decides between the two ways out. *)
Lemma run_batch k us h s :
  run (UserId.batch (Options k (Some us))) h s =
    let docs := set_keyid k <$> deref h us in
    let req := MongoBatch docs DB_TYPE in
    let h1 := stamped k us h in
    let h2 := handed us h1 (mongo_batch_writes us DB_TYPE h1 s) in
    match mongo_batch docs DB_TYPE s with
    | (s', inl why) =>
        Outcome h2 s' [Interaction req (inl why)] (inl (MongoError why))
    | (s', inr r) =>
        Outcome h2 s' [Interaction req (inr r)]
                (if bool_decide (insertedCount r ≠ Z.of_nat (length us))
                 then inl (Error "Failed to persist user ids")
                 else inr tt)
    end.
Proof.
  unfold UserId.batch. cbn [options_userIds options_keyid].
  rewrite run_bind, run_forEach_set_keyid. cbn [completion final_heap final_store calls].
  cbn -[deref stamped handed bool_decide]. rewrite deref_stamped.
  destruct (mongo_batch _ DB_TYPE s) as [s' [why|r]]; [done|].
  cbn -[deref stamped handed bool_decide]. by case_bool_decide.
Qed.

(** When the count the client reports is the length of the array, the
    call ends normally. *)
Lemma batch_succeeds_when_count_matches k us h s s' r :
  mongo_batch (set_keyid k <$> deref h us) DB_TYPE s = (s', inr r) →
  insertedCount r = Z.of_nat (length us) →
  completion (run (UserId.batch (Options k (Some us))) h s) = inr tt.
Proof.
  intros Hbatch Hcount. rewrite run_batch. cbn zeta. rewrite Hbatch.
  cbn [completion]. by rewrite bool_decide_false by (by intros []).
Qed.

Lemma run_batch_no_array k h s :
  run (UserId.batch (Options k None)) h s = Outcome h s [] (inl TypeError).
Proof. done. Qed.

End Batch.

(** C2: [batch] ends with the error "Failed to persist user ids" exactly
    when the client answered with an inserted count different from the
    length of the array; whatever happens, the client is asked once, for
    the insert, and the store is left as that one call left it: nothing is
    undone or retried. *)
Theorem batch_fails_iff_count_differs {S : Type} `{Mongo S}
    (k : option string) (us : list loc) (h : heap) (s : S) :
  let o := run (UserId.batch (Options k (Some us))) h s in
  let docs := set_keyid k <$> deref h us in
  (completion o = inl PersistenceError
   ↔ ∃ r, (mongo_batch docs DB_TYPE s).2 = inr r
          ∧ insertedCount r ≠ Z.of_nat (length us))
  ∧ final_store o = (mongo_batch docs DB_TYPE s).1
  ∧ request <$> calls o = [MongoBatch docs DB_TYPE].
Proof.
  cbn zeta. rewrite run_batch. cbn zeta.
  destruct (mongo_batch _ DB_TYPE s) as [s' [why|r]]; cbn.
  - split; [|done]. split; [done|]. by intros (r & ? & _).
  - split; [|done]. case_bool_decide as Hcount; split.
    + intros _. by exists r.
    + done.
    + done.
    + intros (r' & [= <-] & Hne). by destruct Hcount.
Qed.

(** C5: the documents [batch] sends to the client are the caller's drafts
    with [keyid] overwritten by the supplied key id, so every one of them
    carries it whatever the draft said; and in the store of the
    specification the records added to the collection are these documents
    with their identifiers, each with that key id. *)
Theorem batch_persists_supplied_keyid (k : option string) (us : list loc)
    (h : heap) :
  let docs := set_keyid k <$> deref h us in
  (∀ (S : Type) (M : Mongo S) (s : S),
     request <$> calls (run (UserId.batch (Options k (Some us))) h s)
     = [MongoBatch docs DB_TYPE])
  ∧ (∀ u, u ∈ docs → keyid u = k)
  ∧ (∀ d : db,
       let d' := final_store (run (UserId.batch (Options k (Some us))) h d) in
       collection DB_TYPE d' = collection DB_TYPE d ++ assign_ids (next_id d) docs
       ∧ ∀ u, u ∈ assign_ids (next_id d) docs → keyid u = k).
Proof.
  cbn zeta. split; [|split].
  - intros S M s. rewrite run_batch. cbn zeta.
    by destruct (mongo_batch _ DB_TYPE s) as [s' [why|r]].
  - intros u (draft & -> & _)%list_elem_of_fmap. done.
  - intros d. split.
    + rewrite run_batch. cbn. unfold db_insertMany, db_insertSome.
      rewrite firstn_all. cbn. unfold collection at 1. cbn.
      by rewrite lookup_insert_eq.
    + generalize (next_id d). induction (deref h us) as [|a l IH]; intros n u.
      * by intros ?%elem_of_nil.
      * cbn. intros [->|Hin]%elem_of_cons; [done|]. by eapply IH.
Qed.

(** C6 (the claim as stated fails): after [batch] on the scenario of the
    specification the caller's draft is not what it was, it now carries the
    key id. *)
Lemma batch_mutates_caller_drafts :
  final_heap (run (UserId.batch jon_options) jon_heap empty_db) ≠ jon_heap.
Proof.
  intros Heq. apply (f_equal (λ m : gmap positive userid, keyid <$> m !! 1%positive)) in Heq.
  vm_compute in Heq. discriminate Heq.
Qed.

(** C6 (amended): [batch] itself writes the caller's objects in one way
    only: before the client is called, every draft of the array has its
    [keyid] set to the supplied key id, its other fields and every other
    object staying as they were.  These same objects are then handed to the
    client, and after its reply [batch] writes nothing: the drafts end as
    the client left them, which is with the key id and nothing else changed
    for a client that writes nothing, and the objects that are not in the
    array end as they began.  Without an array nothing changes. *)
Theorem batch_writes_keyid_then_hands_over {S : Type} `{Mongo S} (o : options)
    (h : heap) (s : S) :
  match options_userIds o with
  | None => final_heap (run (UserId.batch o) h s) = h
  | Some us =>
      let k := options_keyid o in
      let h1 := stamped k us h in
      let out := run (UserId.batch o) h s in
      (∀ u, h1 !! u = if decide (u ∈ us) then set_keyid k <$> h !! u else h !! u)
      ∧ final_heap out = handed us h1 (mongo_batch_writes us DB_TYPE h1 s)
      ∧ (∀ u, u ∉ us → final_heap out !! u = h !! u)
      ∧ (mongo_batch_writes us DB_TYPE h1 s = h1 →
         ∀ u, final_heap out !! u
              = if decide (u ∈ us) then set_keyid k <$> h !! u else h !! u)
  end.
Proof.
  destruct o as [k [us|]]; [|done]. cbn [options_userIds options_keyid]. cbn zeta.
  assert (final_heap (run (UserId.batch (Options k (Some us))) h s)
          = handed us (stamped k us h)
              (mongo_batch_writes us DB_TYPE (stamped k us h) s)) as Hheap.
  { rewrite run_batch. cbn zeta.
    by destruct (mongo_batch _ DB_TYPE s) as [s' [why|r]]. }
  split; [intros u; apply stamped_lookup|]. split; [done|]. split.
  - intros u Hu. rewrite Hheap, handed_lookup, decide_False by done.
    by rewrite stamped_lookup, decide_False.
  - intros Hnone u. rewrite Hheap, Hnone, handed_nothing_written.
    apply stamped_lookup.
Qed.

(** With a client that writes the identifier into the document it inserts,
    the caller's draft ends with the key id from [batch] and the identifier
    from the client. *)
Example batch_then_driver_writes_id :
  let o := @run db driver_mongo unit (UserId.batch jon_options) jon_heap empty_db in
  completion o = inr tt
  ∧ final_heap o !! 1%positive
    = Some (set_id (Some 0%N) (set_keyid (Some "02C134D079701934") jon)).
Proof. by vm_compute. Qed.

(** C1 (the code falls short of its documentation): on the scenario of the
    specification the client inserts the one record and reports a count
    of 1, and [batch] then completes with no value ([undefined]) instead of
    the list of user ids its documentation announces. *)
Theorem batch_success_returns_no_value :
  let o := run (UserId.batch jon_options) jon_heap empty_db in
  completion o = inr tt
  ∧ calls o = [Interaction
                 (MongoBatch [set_keyid (Some "02C134D079701934") jon] DB_TYPE)
                 (inr (InsertResult 1))]
  ∧ collection DB_TYPE (final_store o)
    = [set_id (Some 0%N) (set_keyid (Some "02C134D079701934") jon)].
Proof. by vm_compute. Qed.

(** ** [getVerfied] *)

(** [u.verified] is truthy exactly when the flag is [true]. *)
Lemma is_verified_true u : is_verified u = true ↔ verified u = Some true.
Proof. unfold is_verified. destruct (verified u) as [[]|]; naive_solver. Qed.

Lemma find_verified_Some uids v :
  List.find is_verified uids = Some v → v ∈ uids ∧ verified v = Some true.
Proof.
  intros [Hin Hv]%find_some. split; [by apply list_elem_of_In|].
  by apply is_verified_true.
Qed.

Lemma find_verified_None uids :
  List.find is_verified uids = None ↔ ∀ u, u ∈ uids → verified u ≠ Some true.
Proof.
  split.
  - intros Hnone u Hin Hv. apply list_elem_of_In in Hin.
    pose proof (find_none _ _ Hnone u Hin) as Hf.
    apply is_verified_true in Hv. congruence.
  - intros Hall. destruct (List.find is_verified uids) as [v|] eqn:Hf; [|done].
    apply find_verified_Some in Hf as [Hin Hv]. by destruct (Hall v Hin).
Qed.

Section GetVerfied.
Context {S : Type} `{Mongo S}.

Lemma run_by_email_cons uid rest h s :
  run (UserId.by_email (uid :: rest)) h s =
    match mongo_list (Email_is (email_of h uid)) DB_TYPE s with
    | (s', inl why) =>
        Outcome h s' [Interaction (email_query h uid) (inl why)]
                (inl (MongoError why))
    | (s', inr uids) =>
        match List.find is_verified uids with
        | Some v =>
            Outcome h s' [Interaction (email_query h uid) (inr uids)]
                    (inr (Some v))
        | None =>
            let o := run (UserId.by_email rest) h s' in
            Outcome (final_heap o) (final_store o)
                    (Interaction (email_query h uid) (inr uids) :: calls o)
                    (completion o)
        end
    end.
Proof.
  cbn -[List.find]. destruct (mongo_list _ DB_TYPE s) as [s' [why|uids]]; [done|].
  by destruct (List.find is_verified uids).
Qed.

Lemma run_getVerfied o h s :
  run (UserId.getVerfied o) h s =
    let try_emails :=
      match options_userIds o with
      | Some us => UserId.by_email us
      | None => Return None
      end in
    if truthy_string (options_keyid o) then
      match mongo_list (Keyid_is (options_keyid o)) DB_TYPE s with
      | (s', inl why) =>
          Outcome h s' [Interaction (keyid_query (options_keyid o)) (inl why)]
                  (inl (MongoError why))
      | (s', inr uids) =>
          match List.find is_verified uids with
          | Some v =>
              Outcome h s' [Interaction (keyid_query (options_keyid o)) (inr uids)]
                      (inr (Some v))
          | None =>
              let o' := run try_emails h s' in
              Outcome (final_heap o') (final_store o')
                      (Interaction (keyid_query (options_keyid o)) (inr uids) :: calls o')
                      (completion o')
          end
      end
    else run try_emails h s.
Proof.
  unfold UserId.getVerfied. cbn zeta.
  destruct (truthy_string (options_keyid o)); [|done].
  cbn -[List.find UserId.by_email].
  destruct (mongo_list _ DB_TYPE s) as [s' [why|uids]]; [done|].
  by destruct (List.find is_verified uids).
Qed.

(** The loop passes every candidate that misses, in order, and goes on
    with the rest from where they left the store. *)
Lemma run_by_email_miss h pre rest s log s' :
  all_miss h pre s log s' →
  run (UserId.by_email (pre ++ rest)) h s =
    let o := run (UserId.by_email rest) h s' in
    Outcome (final_heap o) (final_store o) (log ++ calls o) (completion o).
Proof.
  induction 1 as [s|uid us s s' s'' uids log Hlist Hfind _ IH].
  - exact (eq_sym (outcome_eta _)).
  - rewrite <- app_comm_cons, run_by_email_cons, Hlist, Hfind. cbn zeta.
    by rewrite IH.
Qed.

Lemma all_miss_requests h us s log s' :
  all_miss h us s log s' → request <$> log = email_query h <$> us.
Proof.
  induction 1 as [s|uid us s s' s'' uids log _ _ _ IH]; [done|].
  cbn. by rewrite IH.
Qed.

End GetVerfied.

Section GetVerfiedLoop.
Context {S : Type} `{Mongo S}.

Lemma by_email_none h us s :
  (∀ i, i ∈ calls (run (UserId.by_email us) h s) → answered_unverified i) →
  completion (run (UserId.by_email us) h s) = inr None.
Proof.
  revert s. induction us as [|uid us IH]; intros s; [done|].
  rewrite run_by_email_cons.
  destruct (mongo_list _ DB_TYPE s) as [s' [why|uids]].
  - intros Hall. destruct (Hall _ (list_elem_of_here _ _)).
  - destruct (List.find is_verified uids) as [v|] eqn:Hfind.
    + intros Hall. specialize (Hall _ (list_elem_of_here _ _)).
      cbn in Hall. congruence.
    + cbn zeta. cbn [calls completion]. intros Hall. apply IH.
      intros i Hi. apply Hall. by right.
Qed.

Lemma by_email_verified h us s r :
  completion (run (UserId.by_email us) h s) = inr (Some r) →
  verified r = Some true.
Proof.
  revert s. induction us as [|uid us IH]; intros s; [done|].
  rewrite run_by_email_cons.
  destruct (mongo_list _ DB_TYPE s) as [s' [why|uids]]; [done|].
  destruct (List.find is_verified uids) as [v|] eqn:Hfind.
  - intros [= <-]. by apply find_verified_Some in Hfind as [_ ?].
  - apply IH.
Qed.

Lemma by_email_read_only h us s :
  let o := run (UserId.by_email us) h s in
  Forall is_list_request (request <$> calls o)
  ∧ final_heap o = h
  ∧ ((∀ q t s0, (mongo_list q t s0).1 = s0) → final_store o = s).
Proof.
  revert s. induction us as [|uid us IH]; intros s.
  - repeat split. constructor.
  - cbn zeta. rewrite run_by_email_cons.
    assert ((∀ q t s0, (mongo_list q t s0).1 = s0) →
            (mongo_list (Email_is (email_of h uid)) DB_TYPE s).1 = s) as Hs
      by (intros Hro; apply Hro).
    destruct (mongo_list _ DB_TYPE s) as [s' [why|uids]]; cbn in Hs.
    + repeat split; [by repeat constructor|done].
    + destruct (List.find is_verified uids).
      * repeat split; [by repeat constructor|done].
      * destruct (IH s') as (Hreqs & Hheap & Hstore). repeat split.
        -- cbn. by constructor.
        -- done.
        -- intros Hro. cbn. rewrite (Hstore Hro). by apply Hs.
Qed.

End GetVerfiedLoop.

(** C4: when the lookup by key id gives no verified document, the
    candidates are looked up by email address in the order of the array;
    the candidates in front that have no verified document are passed, and
    the first candidate whose documents include a verified one ends the
    call with the first such document: the requests made are those for the
    candidates up to it, in order, and none for the candidates behind it. *)
Theorem getVerfied_first_verified_candidate {S : Type} `{Mongo S}
    (o : options) (h : heap) (pre : list loc) (c : loc) (post : list loc)
    (s s0 s1 s2 : S) (log0 log1 : list interaction)
    (uids : list userid) (v : userid) :
  options_userIds o = Some (pre ++ c :: post) →
  key_miss (options_keyid o) s log0 s0 →
  all_miss h pre s0 log1 s1 →
  mongo_list (Email_is (email_of h c)) DB_TYPE s1 = (s2, inr uids) →
  List.find is_verified uids = Some v →
  run (UserId.getVerfied o) h s
  = Outcome h s2 (log0 ++ log1 ++ [Interaction (email_query h c) (inr uids)])
            (inr (Some v))
  ∧ request <$> (log1 ++ [Interaction (email_query h c) (inr uids)])
    = email_query h <$> (pre ++ [c]).
Proof.
  intros Hus Hkey Hpre Hc Hv. split.
  - assert (run (UserId.by_email (pre ++ c :: post)) h s0
            = Outcome h s2 (log1 ++ [Interaction (email_query h c) (inr uids)])
                      (inr (Some v))) as Hloop.
    { rewrite (run_by_email_miss h pre (c :: post) s0 log1 s1 Hpre).
      by rewrite run_by_email_cons, Hc, Hv. }
    rewrite run_getVerfied, Hus. cbn zeta.
    destruct Hkey as [s Hfalsy|s s' uids0 Htruthy Hlist Hnone].
    + by rewrite Hfalsy, Hloop.
    + by rewrite Htruthy, Hlist, Hnone, Hloop.
  - rewrite !fmap_app, (all_miss_requests _ _ _ _ _ Hpre). done.
Qed.

(** C4, on the example of the specification: candidates a@x and b@x, of
    which only b@x has a verified record. *)
Lemma getVerfied_first_verified_candidate_witness :
  run (UserId.getVerfied (Options None (Some [1; 2]%positive))) ab_heap ab_db
  = Outcome ab_heap ab_db
      ([] ++ [Interaction (email_query ab_heap 1) (inr [record 0 "a@x" "ABCD" false])]
          ++ [Interaction (email_query ab_heap 2) (inr [record 1 "b@x" "EF01" true])])
      (inr (Some (record 1 "b@x" "EF01" true)))
  ∧ request <$> ([Interaction (email_query ab_heap 1) (inr [record 0 "a@x" "ABCD" false])]
                 ++ [Interaction (email_query ab_heap 2) (inr [record 1 "b@x" "EF01" true])])
    = email_query ab_heap <$> ([1%positive] ++ [2%positive]).
Proof.
  apply (getVerfied_first_verified_candidate
           (Options None (Some [1; 2]%positive)) ab_heap [1%positive] 2%positive []
           ab_db ab_db ab_db ab_db).
  - reflexivity.
  - apply key_miss_skipped. reflexivity.
  - eapply all_miss_cons; [reflexivity | reflexivity | apply all_miss_nil].
  - reflexivity.
  - reflexivity.
Defined.

(** C8: [getVerfied] asks the client for lists of the collection and for
    nothing else, and writes none of the caller's objects; so with a client
    whose list leaves the store as it is (as [find] of the specification
    does) the store after the call is the store before it. *)
Theorem getVerfied_read_only {S : Type} `{Mongo S} (o : options) (h : heap) (s : S) :
  Forall is_list_request (request <$> calls (run (UserId.getVerfied o) h s))
  ∧ final_heap (run (UserId.getVerfied o) h s) = h
  ∧ ((∀ q t s0, (mongo_list q t s0).1 = s0) →
     final_store (run (UserId.getVerfied o) h s) = s).
Proof.
  rewrite run_getVerfied. cbn zeta.
  assert (∀ s1,
    let o' := run (match options_userIds o with
                   | Some us => UserId.by_email us
                   | None => Return None
                   end) h s1 in
    Forall is_list_request (request <$> calls o')
    ∧ final_heap o' = h
    ∧ ((∀ q t s0, (mongo_list q t s0).1 = s0) → final_store o' = s1)) as Hloop.
  { intros s1. destruct (options_userIds o) as [us|].
    - apply by_email_read_only.
    - repeat split. constructor. }
  destruct (truthy_string (options_keyid o)); [|apply Hloop].
  assert ((∀ q t s0, (mongo_list q t s0).1 = s0) →
          (mongo_list (Keyid_is (options_keyid o)) DB_TYPE s).1 = s) as Hs
    by (intros Hro; apply Hro).
  destruct (mongo_list _ DB_TYPE s) as [s' [why|uids]]; cbn in Hs.
  - repeat split; [by repeat constructor|done].
  - destruct (List.find is_verified uids).
    + repeat split; [by repeat constructor|done].
    + destruct (Hloop s') as (Hreqs & Hheap & Hstore). repeat split.
      * cbn. by constructor.
      * done.
      * intros Hro. cbn. rewrite (Hstore Hro). by apply Hs.
Qed.

(** C8, on the store of the specification with the key id and both
    candidates of the example. *)
Lemma getVerfied_read_only_witness :
  (∀ q t (s0 : db), (mongo_list q t s0).1 = s0)
  ∧ final_store (run (UserId.getVerfied (Options (Some "ABCD") (Some [1; 2]%positive)))
                     ab_heap ab_db) = ab_db.
Proof.
  split; [intros q t s0; reflexivity|].
  apply (getVerfied_read_only (Options (Some "ABCD") (Some [1; 2]%positive)) ab_heap ab_db).
  intros q t s0. reflexivity.
Defined.

(** With neither a key id nor candidates, no request is made at all. *)
Lemma getVerfied_nothing_supplied {S : Type} `{Mongo S} (h : heap) (s : S) :
  run (UserId.getVerfied (Options None None)) h s = Outcome h s [] (inr None).
Proof. done. Qed.

(** C9: when every lookup [getVerfied] makes is answered with documents of
    which none is verified, the call returns no record ([undefined]) and
    raises nothing.  With neither a key id nor candidates no lookup is
    made, so this is the result there as well. *)
Theorem getVerfied_none_when_no_lookup_hits {S : Type} `{Mongo S}
    (o : options) (h : heap) (s : S) :
  (∀ i, i ∈ calls (run (UserId.getVerfied o) h s) → answered_unverified i) →
  completion (run (UserId.getVerfied o) h s) = inr None.
Proof.
  rewrite run_getVerfied. cbn zeta.
  assert (∀ s1,
    let o' := run (match options_userIds o with
                   | Some us => UserId.by_email us
                   | None => Return None
                   end) h s1 in
    (∀ i, i ∈ calls o' → answered_unverified i) → completion o' = inr None)
    as Hloop.
  { intros s1. destruct (options_userIds o) as [us|]; [|done].
    apply by_email_none. }
  destruct (truthy_string (options_keyid o)); [|apply Hloop].
  destruct (mongo_list _ DB_TYPE s) as [s' [why|uids]].
  - intros Hall. destruct (Hall _ (list_elem_of_here _ _)).
  - destruct (List.find is_verified uids) as [v|] eqn:Hfind.
    + intros Hall. specialize (Hall _ (list_elem_of_here _ _)).
      cbn in Hall. congruence.
    + cbn zeta. cbn [calls completion]. intros Hall. apply Hloop.
      intros i Hi. apply Hall. by right.
Qed.

Lemma getVerfied_none_when_no_lookup_hits_witness :
  completion (run (UserId.getVerfied (Options (Some "ABCD") (Some [1; 2]%positive)))
                  ab_heap unverified_db) = inr None.
Proof.
  apply (getVerfied_none_when_no_lookup_hits
           (Options (Some "ABCD") (Some [1; 2]%positive)) ab_heap unverified_db).
  intros i Hi. vm_compute in Hi.
  repeat (apply elem_of_cons in Hi as [->|Hi]; [reflexivity|]).
  by apply elem_of_nil in Hi.
Defined.

(** C10: a record returned by [getVerfied], by the key id or by an email
    address, has its [verified] flag set to [true]. *)
Theorem getVerfied_returns_verified_only {S : Type} `{Mongo S}
    (o : options) (h : heap) (s : S) (r : userid) :
  completion (run (UserId.getVerfied o) h s) = inr (Some r) →
  verified r = Some true.
Proof.
  rewrite run_getVerfied. cbn zeta.
  assert (∀ s1,
    completion (run (match options_userIds o with
                     | Some us => UserId.by_email us
                     | None => Return None
                     end) h s1) = inr (Some r) → verified r = Some true)
    as Hloop.
  { intros s1. destruct (options_userIds o) as [us|]; [|done].
    apply by_email_verified. }
  destruct (truthy_string (options_keyid o)); [|apply Hloop].
  destruct (mongo_list _ DB_TYPE s) as [s' [why|uids]]; [done|].
  destruct (List.find is_verified uids) as [v|] eqn:Hfind.
  - intros [= <-]. by apply find_verified_Some in Hfind as [_ ?].
  - apply Hloop.
Qed.

Lemma getVerfied_returns_verified_only_witness :
  completion (run (UserId.getVerfied (Options (Some "ABCD") (Some [1; 2]%positive)))
                  ab_heap ab_db) = inr (Some (record 1 "b@x" "EF01" true))
  ∧ verified (record 1 "b@x" "EF01" true) = Some true.
Proof.
  split; [reflexivity|].
  apply (getVerfied_returns_verified_only
           (Options (Some "ABCD") (Some [1; 2]%positive)) ab_heap ab_db).
  reflexivity.
Defined.

(** ** [getVerfied] by key id, on the store of the specification *)

Lemma truthy_string_nonempty (K : string) : K ≠ EmptyString → truthy_string (Some K) = true.
Proof. intros HK. cbn. by apply negb_true_iff, String.eqb_neq. Qed.

Lemma run_getVerfied_by_key (K : string) (h : heap) (d : db) :
  K ≠ EmptyString →
  completion (run (UserId.getVerfied (Options (Some K) None)) h d)
  = inr (List.find is_verified
           (filter (matches (Keyid_is (Some K))) (collection DB_TYPE d))).
Proof.
  intros HK. rewrite run_getVerfied. cbn zeta. cbn [options_keyid options_userIds].
  rewrite truthy_string_nonempty by done. cbn [mongo_list spec_mongo db_find].
  by destruct (List.find _ _).
Qed.

(** C3 (the claim as stated fails): the empty string is a key id that
    [if (keyid)] takes for an absent one, so the lookup is skipped although
    the store holds a verified record filed under it. *)
Lemma getVerfied_skips_empty_keyid : ¬ finds_verified_by_key EmptyString ∅ blank_key_db.
Proof.
  intros [[_ Hback] _].
  destruct Hback as (r & Hc & _).
  - exists (record 0 "a@x" EmptyString true). split; [left|done].
  - vm_compute in Hc. discriminate Hc.
Qed.

(** C3 (amended): for every key id K other than the empty string,
    [getVerfied({keyid: K})] returns a record of key K with [verified] true
    exactly when the store holds such a record, and returns nothing
    otherwise. *)
Theorem getVerfied_by_nonempty_keyid (K : string) (h : heap) (d : db) :
  K ≠ EmptyString → finds_verified_by_key K h d.
Proof.
  intros HK. unfold finds_verified_by_key. cbn zeta.
  rewrite run_getVerfied_by_key by done.
  set (hits := filter (matches (Keyid_is (Some K))) (collection DB_TYPE d)).
  assert (∀ r, r ∈ hits ↔ keyid r = Some K ∧ r ∈ collection DB_TYPE d) as Hhits.
  { intros r. unfold hits. by rewrite list_elem_of_filter. }
  split; [split|].
  - intros (r & [= Hfind] & Hkey & Hv).
    apply find_verified_Some in Hfind as [Hin _]. apply Hhits in Hin as [_ Hin].
    by exists r.
  - intros (r & Hin & Hkey & Hv).
    destruct (List.find is_verified hits) as [r'|] eqn:Hfind.
    + exists r'. split; [done|].
      apply find_verified_Some in Hfind as [Hin' Hv'].
      apply Hhits in Hin' as [Hkey' _]. by split.
    + destruct (proj1 (find_verified_None hits) Hfind r); [|done].
      by apply Hhits.
  - intros Hnone. f_equal. apply find_verified_None. intros r Hin Hv.
    apply Hhits in Hin as [Hkey Hin]. apply Hnone. by exists r.
Qed.

Lemma getVerfied_by_nonempty_keyid_witness :
  "ABCD" ≠ EmptyString ∧ finds_verified_by_key "ABCD" ∅ abcd_db.
Proof.
  split; [discriminate|].
  apply (getVerfied_by_nonempty_keyid "ABCD" ∅ abcd_db). discriminate.
Defined.

(** ** [remove], on the store of the specification *)

Lemma filter_all_kept {A} (P : A → Prop) `{∀ x, Decision (P x)} (l : list A) :
  (∀ x, x ∈ l → P x) → filter P l = l.
Proof.
  induction l as [|a l IH]; intros Hall; [done|].
  rewrite filter_cons_True by (apply Hall; left).
  f_equal. apply IH. intros x Hx. apply Hall. by right.
Qed.

Lemma collection_deleteMany q t t' d :
  collection t' (db_deleteMany q t d).1
  = if decide (t = t') then filter (λ u, ¬ matches q u) (collection t d)
    else collection t' d.
Proof.
  unfold collection. cbn. rewrite lookup_alter.
  case_decide as Heq; [|done]. subst t'. by destruct (collections d !! t).
Qed.

(** Deleting where nothing matches leaves the store as it is. *)
Lemma deleteMany_no_match q t d :
  (∀ u, u ∈ collection t d → ¬ matches q u) → db_deleteMany q t d = (d, inr tt).
Proof.
  intros Hnone. unfold db_deleteMany. f_equal. destruct d as [n m]. cbn in *.
  f_equal. apply alter_id. intros l Hl. apply filter_all_kept.
  intros u Hu. apply Hnone. unfold collection. cbn. by rewrite Hl.
Qed.

Lemma run_remove {S : Type} `{Mongo S} (o : options) (h : heap) (s : S) :
  run (UserId.remove o) h s =
    let req := MongoRemove (Keyid_is (options_keyid o)) DB_TYPE in
    match mongo_remove (Keyid_is (options_keyid o)) DB_TYPE s with
    | (s', inl why) => Outcome h s' [Interaction req (inl why)] (inl (MongoError why))
    | (s', inr x) => Outcome h s' [Interaction req (inr x)] (inr tt)
    end.
Proof.
  cbn. by destruct (mongo_remove _ DB_TYPE s) as [s' [why|[]]].
Qed.

(** C7: [remove] with key id K deletes from the collection exactly the
    records whose key id is K and keeps the others as they are and in
    their order; other collections are not touched; it succeeds whether or
    not a record matches, and where none matches the store is left as it
    was, so a second call succeeds and changes nothing. *)
Theorem remove_deletes_exactly_key (K : string) (us : option (list loc))
    (h : heap) (d : db) :
  let o := run (UserId.remove (Options (Some K) us)) h d in
  let o2 := run (UserId.remove (Options (Some K) us)) (final_heap o) (final_store o) in
  completion o = inr tt
  ∧ collection DB_TYPE (final_store o)
    = filter (λ u, keyid u ≠ Some K) (collection DB_TYPE d)
  ∧ (∀ t, t ≠ DB_TYPE → collection t (final_store o) = collection t d)
  ∧ ((∀ u, u ∈ collection DB_TYPE d → keyid u ≠ Some K) → final_store o = d)
  ∧ completion o2 = inr tt
  ∧ final_store o2 = final_store o.
Proof.
  cbn zeta. rewrite !run_remove. cbn zeta.
  cbn [options_keyid mongo_remove spec_mongo].
  set (q := Keyid_is (Some K)).
  assert (∀ d0, db_deleteMany q DB_TYPE d0 = ((db_deleteMany q DB_TYPE d0).1, inr tt))
    as Hdel by done.
  rewrite (Hdel d). cbn [completion final_store final_heap].
  rewrite (Hdel (db_deleteMany q DB_TYPE d).1). cbn [completion final_store].
  assert (collection DB_TYPE (db_deleteMany q DB_TYPE d).1
          = filter (λ u, keyid u ≠ Some K) (collection DB_TYPE d)) as Hcoll.
  { rewrite collection_deleteMany. by rewrite decide_True. }
  split; [done|]. split; [done|]. split; [|split; [|split; [done|]]].
  - intros t Ht. rewrite collection_deleteMany. by rewrite decide_False.
  - intros Hnone. by rewrite deleteMany_no_match.
  - rewrite deleteMany_no_match; [done|].
    intros u. rewrite Hcoll. by intros [? _]%list_elem_of_filter.
Qed.

Example remove_scenario :
  let o := run (UserId.remove (Options (Some "ABCD") None)) ∅ five_db in
  completion o = inr tt
  ∧ collection DB_TYPE (final_store o)
    = [record 1 "b@x" "EF01" true; record 3 "d@x" "EF01" false].
Proof. by vm_compute. Qed.

(** A client that stores nothing of one record reports a count of 0: the
    call ends with the error, and the draft keeps the key id it was given. *)
Example batch_partial_insert_fails :
  let o := @run db (partial_mongo 0) unit (UserId.batch jon_options) jon_heap empty_db in
  completion o = inl PersistenceError
  ∧ final_heap o !! 1%positive = Some (set_keyid (Some "02C134D079701934") jon)
  ∧ collection DB_TYPE (final_store o) = [].
Proof. by vm_compute. Qed.

(** ** The shape of a run of [getVerfied] *)

Section GetVerfiedTrace.
Context {S : Type} `{Mongo S}.

Lemma well_ended_cons q uids reqs (o : outcome S (option userid)) :
  List.find is_verified uids = None →
  well_ended reqs o →
  well_ended (MongoList q DB_TYPE :: reqs)
    (Outcome (final_heap o) (final_store o)
             (Interaction (MongoList q DB_TYPE) (inr uids) :: calls o)
             (completion o)).
Proof.
  intros Hfind [Hpre Hend].
  split; [by apply prefix_cons|]. cbn [completion calls].
  assert (answered_unverified (Interaction (MongoList q DB_TYPE) (inr uids)))
    as Hmiss by done.
  destruct (completion o) as [e|[r|]].
  - destruct Hend as (log & req & why & -> & Hlog & ->).
    exists (Interaction (MongoList q DB_TYPE) (inr uids) :: log), req, why.
    split; [done|]. split; [by constructor|done].
  - destruct Hend as (log & q' & uids' & -> & Hlog & Hr).
    exists (Interaction (MongoList q DB_TYPE) (inr uids) :: log), q', uids'.
    split; [done|]. split; [by constructor|done].
  - destruct Hend as [Hall Hreqs]. split; [by constructor|].
    cbn. by rewrite Hreqs.
Qed.

Lemma by_email_well_ended h us s :
  well_ended (email_query h <$> us) (run (UserId.by_email us) h s).
Proof.
  revert s. induction us as [|uid us IH]; intros s.
  - split; [apply prefix_nil|]. cbn. by split.
  - rewrite run_by_email_cons.
    destruct (mongo_list _ DB_TYPE s) as [s' [why|uids]].
    + split; [by apply prefix_cons, prefix_nil|]. cbn [completion calls].
      by exists [], (email_query h uid), why.
    + destruct (List.find is_verified uids) as [v|] eqn:Hfind.
      * split; [by apply prefix_cons, prefix_nil|]. cbn [completion calls].
        by exists [], (Email_is (email_of h uid)), uids.
      * cbn zeta. rewrite fmap_cons.
        by apply (well_ended_cons (Email_is (email_of h uid)) uids).
Qed.

Lemma getVerfied_well_ended o h s :
  well_ended (lookups o h) (run (UserId.getVerfied o) h s).
Proof.
  rewrite run_getVerfied. cbn zeta. unfold lookups.
  assert (∀ s1, well_ended
            match options_userIds o with
            | Some us => email_query h <$> us
            | None => []
            end
            (run match options_userIds o with
                 | Some us => UserId.by_email us
                 | None => Return None
                 end h s1)) as Hloop.
  { intros s1. destruct (options_userIds o) as [us|].
    - apply by_email_well_ended.
    - split; [apply prefix_nil|]. cbn. by split. }
  destruct (truthy_string (options_keyid o)); [|apply Hloop].
  cbn [app].
  destruct (mongo_list _ DB_TYPE s) as [s' [why|uids]].
  - split; [by apply prefix_cons, prefix_nil|]. cbn [completion calls].
    by exists [], (keyid_query (options_keyid o)), why.
  - destruct (List.find is_verified uids) as [v|] eqn:Hfind.
    + split; [by apply prefix_cons, prefix_nil|]. cbn [completion calls].
      by exists [], (Keyid_is (options_keyid o)), uids.
    + cbn zeta. by apply (well_ended_cons (Keyid_is (options_keyid o)) uids).
Qed.

End GetVerfiedTrace.

(** X1: for every client, the requests [getVerfied] makes are an initial
    segment of its lookups in source order (the key id first when it is
    truthy, then the candidates in array order), so there are at most one
    more than there are candidates. *)
Theorem getVerfied_lookups_in_order {S : Type} `{Mongo S}
    (o : options) (h : heap) (s : S) :
  request <$> calls (run (UserId.getVerfied o) h s) `prefix_of` lookups o h
  ∧ length (calls (run (UserId.getVerfied o) h s))
    ≤ 1 + length (default [] (options_userIds o)).
Proof.
  destruct (getVerfied_well_ended o h s) as [Hpre _]. split; [done|].
  apply prefix_length in Hpre. rewrite length_fmap in Hpre.
  etrans; [exact Hpre|]. unfold lookups. rewrite length_app.
  destruct (truthy_string (options_keyid o)), (options_userIds o) as [us|];
    cbn; rewrite ?length_fmap; lia.
Qed.

(** X2: a record [getVerfied] returns is the first verified document of the
    reply to the last request it made, and every request before that one
    was answered without a verified document. *)
Theorem getVerfied_hit_is_first_of_last_reply {S : Type} `{Mongo S}
    (o : options) (h : heap) (s : S) (r : userid) :
  completion (run (UserId.getVerfied o) h s) = inr (Some r) →
  ∃ log q uids,
    calls (run (UserId.getVerfied o) h s)
    = log ++ [Interaction (MongoList q DB_TYPE) (inr uids)]
    ∧ Forall answered_unverified log
    ∧ List.find is_verified uids = Some r.
Proof.
  intros Hc. destruct (getVerfied_well_ended o h s) as [_ Hend].
  by rewrite Hc in Hend.
Qed.

Lemma getVerfied_hit_is_first_of_last_reply_witness :
  ∃ log q uids,
    calls (run (UserId.getVerfied (Options (Some "ABCD") (Some [1; 2]%positive)))
               ab_heap ab_db)
    = log ++ [Interaction (MongoList q DB_TYPE) (inr uids)]
    ∧ Forall answered_unverified log
    ∧ List.find is_verified uids = Some (record 1 "b@x" "EF01" true).
Proof.
  apply (getVerfied_hit_is_first_of_last_reply
           (Options (Some "ABCD") (Some [1; 2]%positive)) ab_heap ab_db).
  reflexivity.
Defined.

(** X3: [getVerfied] ends with a failure of the client exactly when the
    last request it made is one the client failed on, with that failure;
    no request follows it, and every request before it was answered
    without a verified document. *)
Theorem getVerfied_client_failure_is_last {S : Type} `{Mongo S}
    (o : options) (h : heap) (s : S) (why : string) :
  (completion (run (UserId.getVerfied o) h s) = inl (MongoError why)
   ↔ ∃ log req,
       calls (run (UserId.getVerfied o) h s) = log ++ [Interaction req (inl why)])
  ∧ ∀ log req,
      calls (run (UserId.getVerfied o) h s) = log ++ [Interaction req (inl why)] →
      Forall answered_unverified log.
Proof.
  destruct (getVerfied_well_ended o h s) as [_ Hend].
  set (failure := λ i : interaction,
         match response i with inl w => Some w | inr _ => None end).
  assert (∀ (l1 l2 : list interaction) i1 i2,
            l1 ++ [i1] = l2 ++ [i2] → l1 = l2 ∧ failure i1 = failure i2) as Hlast.
  { intros l1 l2 i1 i2 Heq. apply app_inj_tail in Heq as [-> ->]. done. }
  destruct (completion (run (UserId.getVerfied o) h s)) as [e|[r|]].
  - destruct Hend as (log & req & why' & Hcalls & Hlog & ->). split; [split|].
    + intros [= ->]. by exists log, req.
    + intros (log' & req' & Hcalls'). rewrite Hcalls in Hcalls'.
      apply Hlast in Hcalls' as [_ [= ->]]. done.
    + intros log' req' Hcalls'. rewrite Hcalls in Hcalls'.
      by apply Hlast in Hcalls' as [<- _].
  - destruct Hend as (log & q & uids & Hcalls & _ & _). split; [split; [done|]|].
    + intros (log' & req' & Hcalls'). rewrite Hcalls in Hcalls'.
      by apply Hlast in Hcalls' as [_ ?].
    + intros log' req' Hcalls'. rewrite Hcalls in Hcalls'.
      by apply Hlast in Hcalls' as [_ ?].
  - destruct Hend as [Hall _]. split; [split; [done|]|].
    + intros (log' & req' & Hcalls'). rewrite Hcalls' in Hall.
      apply Forall_app in Hall as [_ Hall]. apply Forall_cons in Hall as [Hbad _].
      by destruct req'.
    + intros log' req' Hcalls'. rewrite Hcalls' in Hall.
      apply Forall_app in Hall as [_ Hall]. apply Forall_cons in Hall as [Hbad _].
      by destruct req'.
Qed.

(** X3, with a client that cannot reach its database: the lookup by key id
    fails and is the only request. *)
Lemma getVerfied_client_failure_is_last_witness :
  completion (@run unit down_mongo _
                (UserId.getVerfied (Options (Some "ABCD") (Some [1; 2]%positive)))
                ab_heap tt)
  = inl (MongoError "connection refused")
  ∧ calls (@run unit down_mongo _
             (UserId.getVerfied (Options (Some "ABCD") (Some [1; 2]%positive)))
             ab_heap tt)
    = [] ++ [Interaction (keyid_query (Some "ABCD")) (inl "connection refused")]
  ∧ Forall answered_unverified [].
Proof.
  split; [reflexivity|]. split; [reflexivity|].
  apply (proj2 (@getVerfied_client_failure_is_last unit down_mongo
                  (Options (Some "ABCD") (Some [1; 2]%positive)) ab_heap tt
                  "connection refused")
               [] (keyid_query (Some "ABCD"))).
  reflexivity.
Defined.

(** X4: [getVerfied] returns nothing only after it has made every one of
    its lookups, by the key id if truthy and by every candidate, and each
    was answered without a verified document. *)
Theorem getVerfied_none_after_every_lookup {S : Type} `{Mongo S}
    (o : options) (h : heap) (s : S) :
  completion (run (UserId.getVerfied o) h s) = inr None →
  request <$> calls (run (UserId.getVerfied o) h s) = lookups o h
  ∧ Forall answered_unverified (calls (run (UserId.getVerfied o) h s)).
Proof.
  intros Hc. destruct (getVerfied_well_ended o h s) as [_ Hend].
  rewrite Hc in Hend. by destruct Hend.
Qed.

Lemma getVerfied_none_after_every_lookup_witness :
  request <$> calls (run (UserId.getVerfied (Options (Some "ABCD") (Some [1; 2]%positive)))
                         ab_heap unverified_db)
  = lookups (Options (Some "ABCD") (Some [1; 2]%positive)) ab_heap
  ∧ Forall answered_unverified
      (calls (run (UserId.getVerfied (Options (Some "ABCD") (Some [1; 2]%positive)))
                  ab_heap unverified_db)).
Proof.
  apply (getVerfied_none_after_every_lookup
           (Options (Some "ABCD") (Some [1; 2]%positive)) ab_heap unverified_db).
  reflexivity.
Defined.

(** X5: the key id comes first: when it is truthy and the client answers
    the lookup by key id with a verified document among the others, the
    first such document is returned after that single request, whatever
    candidates were passed along. *)
Theorem getVerfied_key_hit_skips_candidates {S : Type} `{Mongo S}
    (o : options) (h : heap) (s s' : S) (uids : list userid) (v : userid) :
  truthy_string (options_keyid o) = true →
  mongo_list (Keyid_is (options_keyid o)) DB_TYPE s = (s', inr uids) →
  List.find is_verified uids = Some v →
  run (UserId.getVerfied o) h s
  = Outcome h s' [Interaction (keyid_query (options_keyid o)) (inr uids)]
            (inr (Some v)).
Proof.
  intros Htruthy Hlist Hfind. by rewrite run_getVerfied, Htruthy, Hlist, Hfind.
Qed.

Lemma getVerfied_key_hit_skips_candidates_witness :
  run (UserId.getVerfied (Options (Some "EF01") (Some [1; 2]%positive))) ab_heap ab_db
  = Outcome ab_heap ab_db
      [Interaction (keyid_query (Some "EF01")) (inr [record 1 "b@x" "EF01" true])]
      (inr (Some (record 1 "b@x" "EF01" true))).
Proof.
  apply (getVerfied_key_hit_skips_candidates
           (Options (Some "EF01") (Some [1; 2]%positive)) ab_heap ab_db ab_db).
  - reflexivity.
  - reflexivity.
  - reflexivity.
Defined.

(** ** More on [batch] and [remove], for every client *)

(** X6: given an array, [batch] ends normally exactly when the client
    answers the insert with a count equal to the length of the array. *)
Theorem batch_succeeds_iff_count_matches {S : Type} `{Mongo S}
    (k : option string) (us : list loc) (h : heap) (s : S) :
  completion (run (UserId.batch (Options k (Some us))) h s) = inr tt
  ↔ ∃ r, (mongo_batch (set_keyid k <$> deref h us) DB_TYPE s).2 = inr r
         ∧ insertedCount r = Z.of_nat (length us).
Proof.
  rewrite run_batch. cbn zeta.
  destruct (mongo_batch _ DB_TYPE s) as [s' [why|r]]; cbn.
  - split; [done|]. by intros (r & ? & _).
  - case_bool_decide as Hcount; split.
    + done.
    + intros (r' & [= <-] & Heq). by destruct Hcount.
    + intros _. exists r. split; [done|]. by destruct (decide (insertedCount r = Z.of_nat (length us))).
    + done.
Qed.

(** X8: an empty array is not a special case: the client is still asked
    once, to insert no documents, no object is written, and the call
    succeeds exactly when the client reports a count of 0. *)
Theorem batch_empty_array {S : Type} `{Mongo S}
    (k : option string) (h : heap) (s : S) :
  let o := run (UserId.batch (Options k (Some []))) h s in
  request <$> calls o = [MongoBatch [] DB_TYPE]
  ∧ final_heap o = h
  ∧ (completion o = inr tt
     ↔ ∃ r, (mongo_batch [] DB_TYPE s).2 = inr r ∧ insertedCount r = 0%Z).
Proof.
  cbn zeta. rewrite run_batch. cbn zeta. cbn [deref omap list_omap fmap list_fmap].
  destruct (mongo_batch [] DB_TYPE s) as [s' [why|r]]; cbn.
  - repeat split; [done|]. by intros (r & ? & _).
  - repeat split.
    + case_bool_decide as Hcount; [done|]. intros _. exists r. split; [done|].
      by destruct (decide (insertedCount r = 0%Z)).
    + intros (r' & [= <-] & Heq). by rewrite bool_decide_false by (by intros []).
Qed.

(** X9: for every client and whatever [options.keyid] is, [remove] makes
    one request, to remove the documents of the collection whose key id is
    that value; it writes no object, leaves the store as the request left
    it, ends normally when the client answers and with the client's failure
    when it fails. *)
Theorem remove_makes_one_request {S : Type} `{Mongo S}
    (o : options) (h : heap) (s : S) :
  let out := run (UserId.remove o) h s in
  let answer := mongo_remove (Keyid_is (options_keyid o)) DB_TYPE s in
  request <$> calls out = [MongoRemove (Keyid_is (options_keyid o)) DB_TYPE]
  ∧ final_heap out = h
  ∧ final_store out = answer.1
  ∧ (completion out = inr tt ↔ ∃ x, answer.2 = inr x)
  ∧ (∀ e, completion out = inl e ↔ ∃ why, answer.2 = inl why ∧ e = MongoError why).
Proof.
  cbn zeta. rewrite run_remove. cbn zeta.
  destruct (mongo_remove _ DB_TYPE s) as [s' [why|x]]; cbn.
  - repeat split; try done.
    + by intros [x ?].
    + intros [= <-]. by exists why.
    + by intros (why' & [= <-] & ->).
  - repeat split; try done.
    + intros _. by exists x.
    + by intros (why' & ? & _).
Qed.

(** ** The methods one after the other, on the store of the specification *)

Lemma spec_by_email_calls h us (d : db) :
  Forall (answered_from d) (calls (run (UserId.by_email us) h d)).
Proof.
  induction us as [|uid us IH]; [constructor|].
  rewrite run_by_email_cons. cbn [mongo_list spec_mongo db_find].
  destruct (List.find is_verified _); by repeat constructor.
Qed.

Lemma spec_getVerfied_calls o h (d : db) :
  Forall (answered_from d) (calls (run (UserId.getVerfied o) h d)).
Proof.
  rewrite run_getVerfied. cbn zeta.
  assert (Forall (answered_from d)
            (calls (run match options_userIds o with
                        | Some us => UserId.by_email us
                        | None => Return None
                        end h d))) as Hloop.
  { destruct (options_userIds o); [apply spec_by_email_calls|constructor]. }
  destruct (truthy_string (options_keyid o)); [|done].
  cbn [mongo_list spec_mongo db_find].
  destruct (List.find is_verified _); by repeat constructor.
Qed.

(** A record returned on that store is the first verified document among
    those matching one of the lookups. *)
Lemma spec_getVerfied_hit o h (d : db) r :
  completion (run (UserId.getVerfied o) h d) = inr (Some r) →
  ∃ q, MongoList q DB_TYPE ∈ lookups o h
       ∧ List.find is_verified (filter (matches q) (collection DB_TYPE d)) = Some r.
Proof.
  intros Hc. pose proof (spec_getVerfied_calls o h d) as Hans.
  destruct (getVerfied_well_ended o h d) as [[rest Hpre] Hend].
  rewrite Hc in Hend. destruct Hend as (log & q & uids & Hcalls & _ & Hfind).
  rewrite Hcalls in Hans, Hpre.
  apply Forall_app in Hans as [_ Hlast]. apply Forall_cons in Hlast as [Hlast _].
  cbn in Hlast. subst uids. exists q. split; [|done].
  rewrite Hpre, fmap_app. cbn. rewrite !elem_of_app. left. right. by left.
Qed.

Lemma lookups_elem o h q t :
  MongoList q t ∈ lookups o h →
  (truthy_string (options_keyid o) = true ∧ q = Keyid_is (options_keyid o))
  ∨ (∃ us u, options_userIds o = Some us ∧ u ∈ us ∧ q = Email_is (email_of h u)).
Proof.
  unfold lookups. intros [Hkey|Hmail]%elem_of_app.
  - left. destruct (truthy_string (options_keyid o)); [|by apply elem_of_nil in Hkey].
    apply list_elem_of_singleton in Hkey. by injection Hkey as -> _.
  - right. destruct (options_userIds o) as [us|]; [|by apply elem_of_nil in Hmail].
    apply list_elem_of_fmap in Hmail as (u & Heq & Hu).
    exists us, u. injection Heq as -> _. done.
Qed.

(** X10: on the store of the specification, a record [getVerfied] returns
    is a document of the collection, and it is what was asked for: filed
    under the key id of the call, when that is truthy, or carrying the
    email address of one of the candidates. *)
Theorem getVerfied_returns_what_was_asked (o : options) (h : heap) (d : db)
    (r : userid) :
  completion (run (UserId.getVerfied o) h d) = inr (Some r) →
  r ∈ collection DB_TYPE d
  ∧ ((truthy_string (options_keyid o) = true ∧ keyid r = options_keyid o)
     ∨ (∃ us u, options_userIds o = Some us ∧ u ∈ us ∧ email r = email_of h u)).
Proof.
  intros (q & Hq & Hfind)%spec_getVerfied_hit.
  apply find_verified_Some in Hfind as [Hin _].
  apply list_elem_of_filter in Hin as [Hmatch Hin]. split; [done|].
  apply lookups_elem in Hq as [[Htruthy ->]|(us & u & Hus & Hu & ->)].
  - by left.
  - right. by exists us, u.
Qed.

Lemma getVerfied_returns_what_was_asked_witness :
  record 1 "b@x" "EF01" true ∈ collection DB_TYPE ab_db
  ∧ ((truthy_string (options_keyid (Options (Some "ABCD") (Some [1; 2]%positive))) = true
      ∧ keyid (record 1 "b@x" "EF01" true)
        = options_keyid (Options (Some "ABCD") (Some [1; 2]%positive)))
     ∨ (∃ us u, options_userIds (Options (Some "ABCD") (Some [1; 2]%positive)) = Some us
                ∧ u ∈ us
                ∧ email (record 1 "b@x" "EF01" true) = email_of ab_heap u)).
Proof.
  apply (getVerfied_returns_what_was_asked
           (Options (Some "ABCD") (Some [1; 2]%positive)) ab_heap ab_db).
  reflexivity.
Defined.

Lemma spec_remove_collection (o : options) h (d : db) :
  collection DB_TYPE (final_store (run (UserId.remove o) h d))
  = filter (λ u, ¬ matches (Keyid_is (options_keyid o)) u) (collection DB_TYPE d).
Proof.
  rewrite run_remove. cbn zeta. cbn [mongo_remove spec_mongo].
  change (db_deleteMany (Keyid_is (options_keyid o)) DB_TYPE d)
    with ((db_deleteMany (Keyid_is (options_keyid o)) DB_TYPE d).1, inr tt : string + unit).
  cbn [final_store]. rewrite collection_deleteMany. by rewrite decide_True.
Qed.

(** X11: on the store of the specification, once [remove] was called for a
    key id, no call of [getVerfied], by whatever key id or candidates,
    returns a record filed under that key id. *)
Theorem getVerfied_after_remove (K : option string) (us : option (list loc))
    (o : options) (h h' : heap) (d : db) (r : userid) :
  completion (run (UserId.getVerfied o) h'
                  (final_store (run (UserId.remove (Options K us)) h d)))
  = inr (Some r) →
  keyid r ≠ K.
Proof.
  intros (q & _ & Hfind)%spec_getVerfied_hit.
  apply find_verified_Some in Hfind as [Hin _].
  apply list_elem_of_filter in Hin as [_ Hin].
  rewrite spec_remove_collection in Hin.
  by apply list_elem_of_filter in Hin as [Hne _].
Qed.

Lemma getVerfied_after_remove_witness :
  completion (run (UserId.getVerfied (Options (Some "EF01") None)) ∅
                  (final_store (run (UserId.remove (Options (Some "ABCD") None)) ∅ five_db)))
  = inr (Some (record 1 "b@x" "EF01" true))
  ∧ keyid (record 1 "b@x" "EF01" true) ≠ Some "ABCD".
Proof.
  split; [reflexivity|].
  apply (getVerfied_after_remove (Some "ABCD") None (Options (Some "EF01") None) ∅ ∅ five_db).
  reflexivity.
Defined.

Lemma spec_batch_store k us h (d : db) :
  final_store (run (UserId.batch (Options k (Some us))) h d)
  = (db_insertMany (set_keyid k <$> deref h us) DB_TYPE d).1.
Proof.
  rewrite run_batch. cbn zeta. cbn [mongo_batch spec_mongo].
  unfold db_insertMany, db_insertSome. done.
Qed.

Lemma collection_insertMany docs t (d : db) :
  collection t (db_insertMany docs t d).1
  = collection t d ++ assign_ids (next_id d) docs.
Proof.
  unfold db_insertMany, db_insertSome. rewrite firstn_all. cbn.
  unfold collection at 1. cbn. by rewrite lookup_insert_eq.
Qed.

Lemma assign_ids_elem n docs u :
  u ∈ assign_ids n docs → ∃ i draft, draft ∈ docs ∧ u = set_id (Some i) draft.
Proof.
  revert n. induction docs as [|a docs IH]; intros n; cbn.
  - by intros ?%elem_of_nil.
  - intros [->|Hin]%elem_of_cons.
    + exists n, a. split; [by left|done].
    + destruct (IH _ Hin) as (i & draft & Hd & ->). exists i, draft.
      split; [by right|done].
Qed.

Lemma filter_none_kept {A} (P : A → Prop) `{∀ x, Decision (P x)} (l : list A) :
  (∀ x, x ∈ l → ¬ P x) → filter P l = [].
Proof.
  induction l as [|a l IH]; intros Hnone; [done|].
  rewrite filter_cons_False by (apply Hnone; left).
  apply IH. intros x Hx. apply Hnone. by right.
Qed.

Lemma find_app_first {A} (f : A → bool) (l1 l2 : list A) :
  List.find f (l1 ++ l2)
  = match List.find f l1 with
    | Some x => Some x
    | None => List.find f l2
    end.
Proof. induction l1 as [|a l1 IH]; [done|]. cbn. by destruct (f a). Qed.

(** X12: on the store of the specification, [remove] for a key id takes
    away again all that a [batch] for the same key id has added: the
    collection after both is the one [remove] alone would have left, the
    old records filed under other key ids, and so the old collection
    itself when it held no record of that key id. *)
Theorem remove_undoes_batch (K : option string) (us : list loc)
    (x : option (list loc)) (h h' : heap) (d : db) :
  let d1 := final_store (run (UserId.batch (Options K (Some us))) h d) in
  let d2 := final_store (run (UserId.remove (Options K x)) h' d1) in
  collection DB_TYPE d2 = filter (λ u, keyid u ≠ K) (collection DB_TYPE d)
  ∧ collection DB_TYPE d2
    = collection DB_TYPE (final_store (run (UserId.remove (Options K x)) h' d))
  ∧ ((∀ u, u ∈ collection DB_TYPE d → keyid u ≠ K) →
     collection DB_TYPE d2 = collection DB_TYPE d).
Proof.
  cbn zeta. rewrite !spec_remove_collection, spec_batch_store, collection_insertMany.
  cbn [options_keyid matches]. rewrite filter_app.
  rewrite (filter_none_kept _ (assign_ids _ _)).
  - rewrite app_nil_r. split; [done|]. split; [done|].
    intros Hnone. by apply filter_all_kept.
  - intros u Hu Hne. apply assign_ids_elem in Hu as (i & draft & Hdraft & ->).
    apply list_elem_of_fmap in Hdraft as (u0 & -> & _). by apply Hne.
Qed.

(** X13: on the store of the specification, after a [batch] for a key id
    that is not the empty string, [getVerfied] by that key id returns the
    verified record the store already had for it, if any, and otherwise the
    first draft that was handed to [batch] already verified; when no draft
    was, it returns what it returned before the [batch]. *)
Theorem getVerfied_after_batch (K : string) (us : list loc) (h h' : heap) (d : db) :
  K ≠ EmptyString →
  let d1 := final_store (run (UserId.batch (Options (Some K) (Some us))) h d) in
  let before := completion (run (UserId.getVerfied (Options (Some K) None)) h' d) in
  let after := completion (run (UserId.getVerfied (Options (Some K) None)) h' d1) in
  after
  = match before with
    | inr None =>
        inr (List.find is_verified
               (assign_ids (next_id d) (set_keyid (Some K) <$> deref h us)))
    | _ => before
    end
  ∧ ((∀ u, u ∈ deref h us → verified u ≠ Some true) → after = before).
Proof.
  intros HK. cbn zeta. rewrite !run_getVerfied_by_key by done.
  rewrite spec_batch_store, collection_insertMany, filter_app, find_app_first.
  rewrite (filter_all_kept _ (assign_ids _ _)).
  - split.
    + by destruct (List.find is_verified (filter _ (collection DB_TYPE d))).
    + intros Hdrafts.
      destruct (List.find is_verified (filter _ (collection DB_TYPE d))); [done|].
      f_equal. apply find_verified_None.
      intros u Hu. apply assign_ids_elem in Hu as (i & draft & Hdraft & ->).
      apply list_elem_of_fmap in Hdraft as (u0 & -> & Hu0).
      exact (Hdrafts u0 Hu0).
  - intros u Hu. apply assign_ids_elem in Hu as (i & draft & Hdraft & ->).
    by apply list_elem_of_fmap in Hdraft as (u0 & -> & _).
Qed.

Lemma getVerfied_after_batch_witness :
  "02C134D079701934" ≠ EmptyString
  ∧ completion (run (UserId.getVerfied (Options (Some "02C134D079701934") None)) ∅
                    (final_store (run (UserId.batch jon_options) jon_heap empty_db)))
    = completion (run (UserId.getVerfied (Options (Some "02C134D079701934") None)) ∅
                      empty_db).
Proof.
  split; [discriminate|].
  apply (getVerfied_after_batch "02C134D079701934" [1%positive] jon_heap ∅ empty_db).
  - discriminate.
  - intros u Hu. vm_compute in Hu. apply list_elem_of_singleton in Hu as ->.
    discriminate.
Defined.
